(** * read-guard: the PreToolUse hook that pages large file reads

    A shallow embedding of [read-guard.py] and the properties of its
    decision policy.  The script is a short-lived process: it reads one
    JSON document from standard input, probes the file system, may print
    to standard output or standard error, may append one line to the
    statistics log, and leaves with an exit status.  The embedding keeps
    that shape: the three output channels are the state of a small
    monad, [sys.exit] and Python exceptions are its two abrupt results,
    and what the operating system answers is read from an environment.

    The decisions of the hook are read off a run as the script's header
    lists its exit codes: status 0 with nothing on standard output lets
    the call through, status 0 with a document on standard output lets
    it through with the [updatedInput] of that document, and status 2
    blocks it with the text on the error stream as diagnostic.  Status 1
    is no decision: the hook itself failed. *)

From Stdlib Require Import ZArith Ascii String List Lia.
From stdpp Require Import base tactics option list strings gmap pretty.

Local Open Scope string_scope.
Local Open Scope Z_scope.
Set Warnings "-register-all".

(** ** Text helpers *)

(** Python's [\n] and the double quote inside the messages. *)
Definition nl : string := String (ascii_of_nat 10) EmptyString.
Definition dq : string := String (ascii_of_nat 34) EmptyString.

(** [f"{n}"] for a Python int. *)
Definition str (n : Z) : string := pretty n.

(** [sep.join(parts)]. *)
Fixpoint join (sep : string) (parts : list string) : string :=
  match parts with
  | [] => EmptyString
  | [p] => p
  | p :: rest => p +:+ sep +:+ join sep rest
  end.

(** [s.lower()] on the ASCII letters.  The result is only tested for
    membership in [SKIP_EXTENSIONS], whose members are ASCII, and no
    letter outside ASCII is lowered to one of their letters. *)
Definition lower_ascii (c : ascii) : ascii :=
  let n := nat_of_ascii c in
  if ((65 <=? n)%nat && (n <=? 90)%nat)%bool then ascii_of_nat (n + 32) else c.

Fixpoint lower (s : string) : string :=
  match s with
  | EmptyString => EmptyString
  | String c s' => String (lower_ascii c) (lower s')
  end.

(** [s.rfind(c)] for a one-character needle: the last index, or -1. *)
Fixpoint rfind_from (c : ascii) (s : string) (i last : Z) : Z :=
  match s with
  | EmptyString => last
  | String a s' => rfind_from c s' (i + 1) (if Ascii.eqb a c then i else last)
  end.

Definition rfind (c : ascii) (s : string) : Z := rfind_from c s 0 (-1).

(** The slice [p[a:b]] for [0 <= a]. *)
Definition slice (p : string) (a b : Z) : string :=
  substring (Z.to_nat a) (Z.to_nat (b - a)) p.

(** [p[a:]]. *)
Definition slice_from (p : string) (a : Z) : string :=
  substring (Z.to_nat a) (String.length p - Z.to_nat a) p.

(** ** JSON values as Python objects

    What [json.load] returns: [None], [bool], [int], [str], [list] and
    [dict].  A dict keeps its items in insertion order, so it is a list
    of pairs and a key is looked up from the front.  Numbers are Python
    ints; the hook's protocol carries [offset] and [limit] as integers,
    and a literal with a fraction or an exponent is not part of this
    embedding. *)
Inductive json : Type :=
  | JNull
  | JBool (b : bool)
  | JInt (n : Z)
  | JStr (s : string)
  | JList (l : list json)
  | JDict (items : list (string * json)).

(** [x is None]. *)
Definition is_None (v : json) : bool :=
  match v with JNull => true | _ => false end.

(** [v != s] for a str [s]: only the very same string is equal to it. *)
Definition py_ne_str (v : json) (s : string) : bool :=
  match v with
  | JStr t => negb (String.eqb t s)
  | _ => true
  end.

(** [d.get(key, default)] on the items of a dict. *)
Fixpoint dict_get (items : list (string * json)) (key : string) (default : json) : json :=
  match items with
  | [] => default
  | (k, v) :: rest => if String.eqb k key then v else dict_get rest key default
  end.

(** ** Configuration *)

Definition MAX_FILE_LINES : Z := 1000.
Definition MAX_FILE_BYTES : Z := 50 * 1024.
Definition MAX_SINGLE_READ_LINES : Z := 500.
Definition MAX_SINGLE_READ_BYTES : Z := 20 * 1024.

Definition SKIP_EXTENSIONS : gset string :=
  {[ ".png"; ".jpg"; ".jpeg"; ".gif"; ".bmp"; ".ico"; ".pdf";
     ".exe"; ".dll"; ".so"; ".dylib" ]}.

(** ** The environment of one invocation *)

(** Which [os.path] the interpreter loads: [posixpath], or [ntpath] with
    the backslash (character 92) as separator and the slash as the
    alternative one. *)
Inductive platform : Type := Posix | Nt.

(** What probing one existing path answers.  [f_lines] is the sequence
    of lines that iterating over the file opened for reading yields,
    [None] when opening or reading raises (a directory, permission
    denied); [f_size] is [os.path.getsize], [None] when it raises. *)
Record probe : Type := {
  f_lines : option (list string);
  f_size : option Z
}.

Record Env : Type := {
  os_name : platform;
  (** the file system: [None] for a path that does not exist *)
  fs : string → option probe;
  (** [datetime.now().strftime("%Y-%m-%d %H:%M:%S")] *)
  now : string;
  (** whether creating the log directory and appending to the log succeed *)
  log_writable : bool
}.

(** Standard input as [json.load] sees it: a document, or text on which
    it raises [JSONDecodeError] with message [e]. *)
Inductive Stdin : Type :=
  | Document (v : json)
  | Invalid (e : string).

(** ** The process monad *)

(** The channels a run writes to.  [stdout] holds the documents printed
    through [json.dumps], [stderr] the texts printed to the error
    stream, [log_file] the lines of the statistics log. *)
Record Process : Type := {
  stdout : list json;
  stderr : list string;
  log_file : list string
}.

(** How a computation ends: normally with a value, in [sys.exit], or in
    a raised exception. *)
Inductive Flow (A : Type) : Type :=
  | Normal (a : A)
  | SystemExit (code : Z)
  | Raised (exc : string).
Arguments Normal {A} a.
Arguments SystemExit {A} code.
Arguments Raised {A} exc.

Definition Py (A : Type) : Type := Process → Flow A * Process.

#[global] Instance Py_ret : MRet Py := λ A a p, (Normal a, p).
#[global] Instance Py_bind : MBind Py := λ A B f m p,
  match m p with
  | (Normal a, p') => f a p'
  | (SystemExit c, p') => (SystemExit c, p')
  | (Raised e, p') => (Raised e, p')
  end.

Definition sys_exit {A : Type} (code : Z) : Py A := λ p, (SystemExit code, p).
Definition raise {A : Type} (exc : string) : Py A := λ p, (Raised exc, p).

(** [try: body  except Exception: handler].  [SystemExit] is not an
    [Exception] and passes through. *)
Definition try_except {A : Type} (body handler : Py A) : Py A := λ p,
  match body p with
  | (Raised _, p') => handler p'
  | r => r
  end.

(** [if c: body] as a statement. *)
Definition when (c : bool) (body : Py unit) : Py unit :=
  if c then body else mret tt.

(** [print(msg, file=sys.stderr)]. *)
Definition print_stderr (msg : string) : Py unit := λ p,
  (Normal tt, {| stdout := stdout p; stderr := stderr p ++ [msg]; log_file := log_file p |}).

(** [print(json.dumps(doc))]. *)
Definition print_json (doc : json) : Py unit := λ p,
  (Normal tt, {| stdout := stdout p ++ [doc]; stderr := stderr p; log_file := log_file p |}).

(** A system call that answers [None] raises [OSError]. *)
Definition os_call {A : Type} (r : option A) : Py A :=
  match r with
  | Some a => mret a
  | None => raise "OSError"
  end.

(** [obj.get(key, default)]: only a dict has the method. *)
Definition py_get (obj : json) (key : string) (default : json) : Py json :=
  match obj with
  | JDict items => mret (dict_get items key default)
  | _ => raise "AttributeError"
  end.

(** [os.fspath(p)], the first thing [os.path.splitext] does. *)
Definition fspath (p : json) : Py string :=
  match p with
  | JStr s => mret s
  | _ => raise "TypeError"
  end.

(** ** [os.path.splitext] *)

(** The loop of [genericpath._splitext] that skips the leading dots of
    the file name: [true] when it meets a character that is not a dot
    before [dotIndex], so that the path is split there. *)
Fixpoint split_at_dot (p : string) (filenameIndex : Z) (steps : nat) : bool :=
  match steps with
  | O => false
  | S steps' =>
      if negb (String.eqb (slice p filenameIndex (filenameIndex + 1)) ".")
      then true
      else split_at_dot p (filenameIndex + 1) steps'
  end.

Definition _splitext (p : string) (sep : ascii) (altsep : option ascii) : string * string :=
  let sepIndex := rfind sep p in
  let sepIndex :=
    match altsep with
    | Some a => Z.max sepIndex (rfind a p)
    | None => sepIndex
    end in
  let dotIndex := rfind "." p in
  if (sepIndex <? dotIndex)
     && split_at_dot p (sepIndex + 1) (Z.to_nat (dotIndex - (sepIndex + 1)))
  then (slice p 0 dotIndex, slice_from p dotIndex)
  else (p, EmptyString).

Definition splitext (os : platform) (p : string) : string * string :=
  match os with
  | Posix => _splitext p "/" None
  | Nt => _splitext p "092" (Some "/"%char)
  end.

(** ** [format_bytes] *)

(** The nearest integer to [a / b] for [0 < b], halves going to the even
    neighbour. *)
Definition round_half_even (a b : Z) : Z :=
  let q := a / b in
  let r := a mod b in
  if 2 * r <? b then q
  else if b <? 2 * r then q + 1
  else if Z.even q then q else q + 1.

(** A non-negative int as the nearest binary64 float (53 significant
    bits, halves to even); below [2^53] every int is a float. *)
Definition to_float (n : Z) : Z :=
  if n <? 2 ^ 53 then n
  else
    let e := Z.log2 n - 52 in
    round_half_even n (2 ^ e) * 2 ^ e.

(** [f"{n / d:.1f}"] for [0 <= n] and [d] a power of two: the quotient
    of an int by a power of two is the float of [n] scaled, and the
    format rounds its exact value to one decimal. *)
Definition fmt_div_1f (n d : Z) : string :=
  let tenths := round_half_even (10 * to_float n) d in
  str (tenths / 10) +:+ "." +:+ str (tenths mod 10).

Definition format_bytes (size : Z) : string :=
  if 1024 * 1024 <=? size then fmt_div_1f size (1024 * 1024) +:+ "MB"
  else if 1024 <=? size then fmt_div_1f size 1024 +:+ "KB"
  else str size +:+ "B".

(** ** The functions of the script *)

Section ReadGuard.

Variable env : Env.

Definition os_path_exists (file_path : string) : bool :=
  bool_decide (is_Some (fs env file_path)).

(** Iterating over the opened file; a path that does not exist raises
    as well. *)
Definition open_lines (file_path : string) : Py (list string) :=
  os_call (fs env file_path ≫= f_lines).

Definition os_path_getsize (file_path : string) : Py Z :=
  os_call (fs env file_path ≫= f_size).

Definition get_file_line_count (file_path : string) : Py (option Z) :=
  try_except
    (f ← open_lines file_path;
     mret (Some (Z.of_nat (length f))))
    (mret None).

Definition get_file_size (file_path : string) : Py (option Z) :=
  try_except
    (size ← os_path_getsize file_path;
     mret (Some size))
    (mret None).

(** Creating the directory, opening the log in append mode and writing
    the entry: the entry is appended, or [OSError] is raised. *)
Definition append_log (log_entry : string) : Py unit := λ p,
  if log_writable env
  then (Normal tt, {| stdout := stdout p; stderr := stderr p;
                      log_file := log_file p ++ [log_entry] |})
  else (Raised "OSError", p).

(** The line [log_stats] writes. *)
Definition log_entry (timestamp : string) (blocked : bool) (lines bytes_size : Z)
    (reason file_path : string) : string :=
  let status := if blocked then "BLOCKED" else "ALLOWED" in
  timestamp +:+ " | " +:+ status +:+ " | lines=" +:+ str lines
  +:+ " bytes=" +:+ str bytes_size +:+ " | " +:+ reason
  +:+ " | " +:+ file_path +:+ nl.

Definition log_stats (file_path : string) (lines bytes_size : Z)
    (blocked : bool) (reason : string) : Py unit :=
  try_except
    (let timestamp := now env in
     append_log (log_entry timestamp blocked lines bytes_size reason file_path))
    (mret tt).

(** The reason of rule 1: the exceeded thresholds, joined. *)
Definition paging_reason (file_lines file_bytes : Z) : string :=
  let exceeds_lines := MAX_FILE_LINES <? file_lines in
  let exceeds_bytes := MAX_FILE_BYTES <? file_bytes in
  let reason_parts : list string := [] in
  let reason_parts :=
    if exceeds_lines
    then (reason_parts ++ [str file_lines +:+ " lines (>" +:+ str MAX_FILE_LINES +:+ ")"])%list
    else reason_parts in
  let reason_parts :=
    if exceeds_bytes
    then (reason_parts
          ++ [format_bytes file_bytes +:+ " (>" +:+ format_bytes MAX_FILE_BYTES +:+ ")"])%list
    else reason_parts in
  join " AND " reason_parts.

(** The diagnostic of rule 1. *)
Definition paging_error_msg (file_path reason : string) : string :=
  "BLOCKED: File exceeds thresholds: " +:+ reason +:+ "." +:+ nl
  +:+ "You MUST specify both 'offset' and 'limit' parameters." +:+ nl +:+ nl
  +:+ "Recommended approach:" +:+ nl
  +:+ "1. Use Grep to find target line numbers first" +:+ nl
  +:+ "2. Then Read with offset and limit (max " +:+ str MAX_SINGLE_READ_LINES
  +:+ " lines / " +:+ format_bytes MAX_SINGLE_READ_BYTES +:+ ")" +:+ nl +:+ nl
  +:+ "Example:" +:+ nl
  +:+ "  Grep: pattern=" +:+ dq +:+ "function_name" +:+ dq
  +:+ " path=" +:+ dq +:+ file_path +:+ dq +:+ nl
  +:+ "  Read: file_path=" +:+ dq +:+ file_path +:+ dq
  +:+ ", offset=<line-5>, limit=50".

(** The diagnostic of rule 2; [limit] is the requested limit as the
    f-string shows it. *)
Definition ceiling_error_msg (limit : string) : string :=
  "BLOCKED: Requested limit=" +:+ limit +:+ " exceeds maximum "
  +:+ str MAX_SINGLE_READ_LINES +:+ " lines." +:+ nl
  +:+ "Please reduce the limit parameter to " +:+ str MAX_SINGLE_READ_LINES
  +:+ " or less.".

(** The document of rule 3. *)
Definition auto_limit_output (file_lines file_bytes : Z) : json :=
  JDict [
    ("hookSpecificOutput", JDict [
      ("hookEventName", JStr "PreToolUse");
      ("permissionDecision", JStr "allow");
      ("permissionDecisionReason",
        JStr ("Auto-added limit=" +:+ str MAX_SINGLE_READ_LINES
              +:+ " (file: " +:+ str file_lines +:+ " lines, "
              +:+ format_bytes file_bytes +:+ ")"));
      ("updatedInput", JDict [ ("limit", JInt MAX_SINGLE_READ_LINES) ])
    ])
  ].

(** [limit > MAX_SINGLE_READ_LINES], with the text that [f"{limit}"]
    shows when the comparison holds.  A bool is an int (and prints as
    [True] or [False]); a str, list or dict against an int raises. *)
Definition exceeds_read_lines (limit : json) : Py (option string) :=
  match limit with
  | JInt n => mret (if MAX_SINGLE_READ_LINES <? n then Some (str n) else None)
  | JBool b =>
      mret (if MAX_SINGLE_READ_LINES <? Z.b2z b
            then Some (if b then "True" else "False") else None)
  | JNull | JStr _ | JList _ | JDict _ => raise "TypeError"
  end.

(** The rules of [main] (source lines 104 to 159), applied once the file
    has been measured. *)
Definition main_rules (file_path : string) (offset limit : json)
    (file_lines file_bytes : Z) : Py unit :=
  (* Rule 1: large files must specify offset and limit *)
  let exceeds_lines := MAX_FILE_LINES <? file_lines in
  let exceeds_bytes := MAX_FILE_BYTES <? file_bytes in
  when (exceeds_lines || exceeds_bytes)
    (when (is_None offset || is_None limit)
      (let reason := paging_reason file_lines file_bytes in
       let error_msg := paging_error_msg file_path reason in
       log_stats file_path file_lines file_bytes true
         ("missing offset/limit: " +:+ reason);;
       print_stderr error_msg;;
       sys_exit 2));;
  (* Rule 2: the requested range is too large (lines) *)
  too_large ←
    (if negb (is_None limit) then exceeds_read_lines limit else mret None);
  match too_large with
  | Some shown =>
      let error_msg := ceiling_error_msg shown in
      log_stats file_path file_lines file_bytes true
        ("limit too large: " +:+ shown);;
      print_stderr error_msg;;
      sys_exit 2
  | None => mret tt
  end;;
  (* Rule 3: offset without limit gets the limit added *)
  when (negb (is_None offset) && is_None limit)
    (let output := auto_limit_output file_lines file_bytes in
     log_stats file_path file_lines file_bytes false "auto-added limit";;
     print_json output;;
     sys_exit 0);;
  (* All checks passed *)
  log_stats file_path file_lines file_bytes false "passed";;
  sys_exit 0.

(** [main] up to the rules (source lines 70 to 102). *)
Definition main (stdin : Stdin) : Py unit :=
  input_data ←
    match stdin with
    | Document v => mret v
    | Invalid e =>
        print_stderr ("[Hook Error] Invalid JSON: " +:+ e);;
        sys_exit 1
    end;
  tool_name ← py_get input_data "tool_name" (JStr EmptyString);
  tool_input ← py_get input_data "tool_input" (JDict []);
  (* Only process Read tool *)
  when (py_ne_str tool_name "Read") (sys_exit 0);;
  file_path ← py_get tool_input "file_path" (JStr EmptyString);
  offset ← py_get tool_input "offset" JNull;
  limit ← py_get tool_input "limit" JNull;
  (* Skip binary files *)
  file_path ← fspath file_path;
  let ext := lower (snd (splitext (os_name env) file_path)) in
  when (bool_decide (ext ∈ SKIP_EXTENSIONS)) (sys_exit 0);;
  (* Check if file exists *)
  when (negb (os_path_exists file_path)) (sys_exit 0);;
  (* Get file metrics *)
  file_lines ← get_file_line_count file_path;
  file_bytes ← get_file_size file_path;
  match file_lines, file_bytes with
  | Some file_lines, Some file_bytes =>
      main_rules file_path offset limit file_lines file_bytes
  | _, _ =>
      (* Cannot read, let tool handle it *)
      sys_exit 0
  end.

(** The process starts with empty output channels and the log as the
    earlier runs left it. *)
Definition start (log0 : list string) : Process :=
  {| stdout := []; stderr := []; log_file := log0 |}.

(** How the interpreter leaves: with the status given to [sys.exit], with
    0 when [main] returns, and with status 1 and the traceback on the
    error stream when an exception is caught by nothing. *)
Definition finish (r : Flow unit * Process) : Z * Process :=
  match r with
  | (Normal _, p) => (0, p)
  | (SystemExit code, p) => (code, p)
  | (Raised exc, p) =>
      (1, {| stdout := stdout p;
             stderr := stderr p ++ ["Traceback (most recent call last): " +:+ exc];
             log_file := log_file p |})
  end.

(** One run of the script: the exit status and the final channels. *)
Definition run (stdin : Stdin) (log0 : list string) : Z * Process :=
  finish (main stdin (start log0)).

End ReadGuard.

(** ** Vocabulary of the properties *)

(** The document on standard input is a dict that calls the Read tool on
    [file_path]; [offset] and [limit] are what [tool_input.get] answers,
    [JNull] for a key that is absent or null. *)
Definition read_call (items ti : list (string * json)) (file_path : string)
    (offset limit : json) : Prop :=
  dict_get items "tool_name" (JStr EmptyString) = JStr "Read" ∧
  dict_get items "tool_input" (JDict []) = JDict ti ∧
  dict_get ti "file_path" (JStr EmptyString) = JStr file_path ∧
  dict_get ti "offset" JNull = offset ∧
  dict_get ti "limit" JNull = limit.

(** The extension of [file_path] is on the skip list. *)
Definition skipped (os : platform) (file_path : string) : bool :=
  bool_decide (lower (snd (splitext os file_path)) ∈ SKIP_EXTENSIONS).

(** The line count and the byte size of [file_path], when the file
    exists and both can be determined. *)
Definition metrics (env : Env) (file_path : string) : option (Z * Z) :=
  pr ← fs env file_path;
  ls ← f_lines pr;
  size ← f_size pr;
  Some (Z.of_nat (length ls), size).

(** The log after [log_stats] tried to append [entry] to [log0]. *)
Definition logged (env : Env) (log0 : list string) (entry : string) : list string :=
  log0 ++ (if log_writable env then [entry] else []).

(** The invocations [main] lets through before any rule is looked at:
    another tool, a skipped extension, a file that does not exist, a file
    that cannot be measured. *)
Inductive fast_bypass (env : Env) : Stdin → Prop :=
  | bypass_tool items :
      py_ne_str (dict_get items "tool_name" (JStr EmptyString)) "Read" = true →
      fast_bypass env (Document (JDict items))
  | bypass_extension items ti file_path offset limit :
      read_call items ti file_path offset limit →
      skipped (os_name env) file_path = true →
      fast_bypass env (Document (JDict items))
  | bypass_missing items ti file_path offset limit :
      read_call items ti file_path offset limit →
      skipped (os_name env) file_path = false →
      fs env file_path = None →
      fast_bypass env (Document (JDict items))
  | bypass_probe items ti file_path offset limit pr :
      read_call items ti file_path offset limit →
      skipped (os_name env) file_path = false →
      fs env file_path = Some pr →
      f_lines pr = None ∨ f_size pr = None →
      fast_bypass env (Document (JDict items)).

(** How a run of [main] ends: in [sys.exit] with status 0, 1 or 2, or in an
    exception. *)
Definition abrupt (r : Flow unit) : Prop :=
  r = SystemExit 0 ∨ r = SystemExit 1 ∨ r = SystemExit 2 ∨ ∃ exc, r = Raised exc.

(** [v[key]] for a dict [v], [JNull] when there is no such item. *)
Definition json_field (v : json) (key : string) : json :=
  match v with
  | JDict items => dict_get items key JNull
  | _ => JNull
  end.

(** The limit that a document printed by the hook puts into the call. *)
Definition updated_limit (doc : json) : json :=
  json_field (json_field (json_field doc "hookSpecificOutput") "updatedInput") "limit".


(** ** Sample invocations *)

(** A file system that holds one file. *)
Definition single_file (path : string) (pr : probe) : string → option probe :=
  λ q, if String.eqb q path then Some pr else None.

(** A line of [width] bytes: [width - 1] letters and the newline. *)
Fixpoint letters (n : nat) : string :=
  match n with
  | O => EmptyString
  | S n' => String "x" (letters n')
  end.

Definition text_lines (n width : nat) : list string :=
  replicate n (letters (width - 1) +:+ nl).

(** A readable ASCII file with these lines; its size is their total
    length. *)
Definition ascii_file (lines : list string) : probe :=
  {| f_lines := Some lines;
     f_size := Some (Z.of_nat (foldr (λ l acc, String.length l + acc)%nat O lines)) |}.

(** 1200 lines, 10240 bytes. *)
Definition long_file : probe :=
  ascii_file (text_lines 640 9 ++ text_lines 560 8).

(** 800 lines, 61440 bytes. *)
Definition heavy_file : probe :=
  ascii_file (text_lines 640 77 ++ text_lines 160 76).

(** 50 lines, 2048 bytes. *)
Definition small_file : probe :=
  ascii_file (text_lines 48 41 ++ text_lines 2 40).

Definition sample_env (path : string) (pr : probe) : Env :=
  {| os_name := Posix; fs := single_file path pr;
     now := "2025-03-14 09:26:53"; log_writable := true |}.

(** [{"tool_name": "Read", "tool_input": {...}}] *)
Definition read_tool (tool_input : list (string * json)) : list (string * json) :=
  [("tool_name", JStr "Read"); ("tool_input", JDict tool_input)].

(** The five shapes a run can end in, on a log that held [log0]: let
    through untouched, failed, blocked, passed, and passed with an
    amended input. *)
Inductive outcome (env : Env) (log0 : list string) : Z * Process → Prop :=
  | outcome_quiet :
      outcome env log0 (0, {| stdout := []; stderr := []; log_file := log0 |})
  | outcome_failed msg :
      outcome env log0 (1, {| stdout := []; stderr := [msg]; log_file := log0 |})
  | outcome_blocked msg entry :
      outcome env log0
        (2, {| stdout := []; stderr := [msg];
               log_file := logged env log0 entry |})
  | outcome_passed entry :
      outcome env log0
        (0, {| stdout := []; stderr := [];
               log_file := logged env log0 entry |})
  | outcome_amended doc entry :
      outcome env log0
        (0, {| stdout := [doc]; stderr := [];
               log_file := logged env log0 entry |}).

(** Two runs show the same to the caller: exit status, standard output
    and error stream. *)
Definition same_answer (r r' : Z * Process) : Prop :=
  r.1 = r'.1 ∧ stdout r.2 = stdout r'.2 ∧ stderr r.2 = stderr r'.2.

(** ** The helpers on sample values *)

Example splitext_samples :
  splitext Posix "src/parser.py" = ("src/parser", ".py") ∧
  splitext Posix "img/logo.PNG" = ("img/logo", ".PNG") ∧
  splitext Posix "backup.d/.bashrc" = ("backup.d/.bashrc", EmptyString) ∧
  splitext Posix "archive.tar.gz" = ("archive.tar", ".gz") ∧
  splitext Nt "C:/site.d/index" = ("C:/site.d/index", EmptyString).
Proof. repeat split. Qed.

Example skipped_samples :
  skipped Posix "img/logo.PNG" = true ∧
  skipped Posix "lib/libz.so" = true ∧
  skipped Posix "src/parser.py" = false ∧
  skipped Posix "png" = false.
Proof. vm_compute. repeat split. Qed.

(** Thresholds as the diagnostics show them; 1280 bytes are 1.25 KB, a
    half that goes to the even digit. *)
Example format_bytes_samples :
  format_bytes MAX_FILE_BYTES = "50.0KB" ∧
  format_bytes MAX_SINGLE_READ_BYTES = "20.0KB" ∧
  format_bytes 1023 = "1023B" ∧
  format_bytes 1280 = "1.2KB" ∧
  format_bytes 1792 = "1.8KB" ∧
  format_bytes 61440 = "60.0KB" ∧
  format_bytes 2048000 = "2.0MB".
Proof. vm_compute. repeat split. Qed.

Example sample_files :
  metrics (sample_env "a.txt" long_file) "a.txt" = Some (1200, 10240) ∧
  metrics (sample_env "a.txt" heavy_file) "a.txt" = Some (800, 61440) ∧
  metrics (sample_env "a.txt" small_file) "a.txt" = Some (50, 2048) ∧
  metrics (sample_env "a.txt" small_file) "b.txt" = None.
Proof. vm_compute. repeat split. Qed.

(** ** Running the script symbolically *)

Ltac py_step :=
  cbv [mbind mret Py_bind Py_ret py_get when sys_exit raise fspath os_call
       try_except print_stderr print_json append_log log_stats start finish
       stdout stderr log_file].

(** The head of [main] on a call of the Read tool, up to the test of the
    extension. *)
Ltac enter_read Htool Hin Hpath :=
  unfold main; py_step; rewrite Htool, Hin;
  cbn [py_ne_str String.eqb Ascii.eqb Bool.eqb negb];
  rewrite Hpath.

Lemma is_None_true v : is_None v = true → v = JNull.
Proof. by destruct v. Qed.

Lemma is_None_false v : v ≠ JNull → is_None v = false.
Proof. by destruct v. Qed.

Lemma log_stats_run env file_path lines bytes_size blocked reason p :
  log_stats env file_path lines bytes_size blocked reason p =
  (Normal tt,
   {| stdout := stdout p; stderr := stderr p;
      log_file :=
        logged env (log_file p)
          (log_entry (now env) blocked lines bytes_size reason file_path) |}).
Proof.
  unfold logged. py_step. destruct (log_writable env); [done|].
  destruct p; cbn. by rewrite app_nil_r.
Qed.

Section Measured.

Context (env : Env) (items ti : list (string * json)) (file_path : string).
Context (offset limit : json) (file_lines file_bytes : Z).

Hypothesis Hcall : read_call items ti file_path offset limit.
Hypothesis Hskip : skipped (os_name env) file_path = false.
Hypothesis Hmetrics : metrics env file_path = Some (file_lines, file_bytes).

(** A call that passes the early exits of [main] is decided by the rules. *)
Lemma main_measured p :
  main env (Document (JDict items)) p =
  main_rules env file_path offset limit file_lines file_bytes p.
Proof.
  destruct Hcall as (Htool & Hin & Hpath & Hoff & Hlim).
  enter_read Htool Hin Hpath. rewrite Hoff, Hlim.
  unfold skipped in Hskip. rewrite Hskip.
  unfold metrics in Hmetrics.
  unfold os_path_exists, get_file_line_count, get_file_size,
    open_lines, os_path_getsize.
  py_step.
  destruct (fs env file_path) as [[[ls|] [sz|]]|]; by simplify_eq/=.
Qed.

End Measured.

(** *** The four ways the rules end *)

Section Rules.

Context (env : Env) (file_path : string) (file_lines file_bytes : Z).
Context (p : Process).

Lemma rules_paging offset limit :
  MAX_FILE_LINES < file_lines ∨ MAX_FILE_BYTES < file_bytes →
  offset = JNull ∨ limit = JNull →
  main_rules env file_path offset limit file_lines file_bytes p =
  (SystemExit 2,
   {| stdout := stdout p;
      stderr := stderr p ++
        [paging_error_msg file_path (paging_reason file_lines file_bytes)];
      log_file := logged env (log_file p)
        (log_entry (now env) true file_lines file_bytes
           ("missing offset/limit: " +:+ paging_reason file_lines file_bytes)
           file_path) |}).
Proof.
  intros Hex Hmiss. unfold main_rules.
  assert ((MAX_FILE_LINES <? file_lines) || (MAX_FILE_BYTES <? file_bytes) = true) as ->.
  { apply orb_true_iff. rewrite !Z.ltb_lt. done. }
  assert (is_None offset || is_None limit = true) as ->.
  { destruct Hmiss as [-> | ->]; [done|]. by rewrite orb_true_r. }
  cbv [mbind Py_bind when]. rewrite log_stats_run. done.
Qed.

Lemma rules_ceiling offset n :
  (file_lines ≤ MAX_FILE_LINES ∧ file_bytes ≤ MAX_FILE_BYTES) ∨ is_None offset = false →
  MAX_SINGLE_READ_LINES < n →
  main_rules env file_path offset (JInt n) file_lines file_bytes p =
  (SystemExit 2,
   {| stdout := stdout p;
      stderr := stderr p ++ [ceiling_error_msg (str n)];
      log_file := logged env (log_file p)
        (log_entry (now env) true file_lines file_bytes
           ("limit too large: " +:+ str n) file_path) |}).
Proof.
  intros Hoff Hn. unfold main_rules.
  assert (((MAX_FILE_LINES <? file_lines) || (MAX_FILE_BYTES <? file_bytes))
          && (is_None offset || is_None (JInt n)) = false) as Hr1.
  { destruct Hoff as [[??] | ->]; [|by rewrite andb_false_r].
    rewrite (proj2 (Z.ltb_ge _ _)), (proj2 (Z.ltb_ge _ _)); done. }
  apply Z.ltb_lt in Hn.
  destruct ((MAX_FILE_LINES <? file_lines) || (MAX_FILE_BYTES <? file_bytes));
    destruct (is_None offset); try discriminate Hr1;
    cbv [mbind mret Py_bind Py_ret when is_None orb negb exceeds_read_lines];
    rewrite Hn; cbv [mbind Py_bind]; by rewrite log_stats_run.
Qed.

Lemma rules_auto offset :
  file_lines ≤ MAX_FILE_LINES → file_bytes ≤ MAX_FILE_BYTES →
  is_None offset = false →
  main_rules env file_path offset JNull file_lines file_bytes p =
  (SystemExit 0,
   {| stdout := stdout p ++ [auto_limit_output file_lines file_bytes];
      stderr := stderr p;
      log_file := logged env (log_file p)
        (log_entry (now env) false file_lines file_bytes
           "auto-added limit" file_path) |}).
Proof.
  intros Hl Hb Hoff. unfold main_rules.
  rewrite (proj2 (Z.ltb_ge _ _) Hl), (proj2 (Z.ltb_ge _ _) Hb), Hoff.
  cbv [mbind mret Py_bind Py_ret when is_None orb andb negb].
  by rewrite log_stats_run.
Qed.

Lemma rules_pass_limit offset n :
  (file_lines ≤ MAX_FILE_LINES ∧ file_bytes ≤ MAX_FILE_BYTES) ∨ is_None offset = false →
  n ≤ MAX_SINGLE_READ_LINES →
  main_rules env file_path offset (JInt n) file_lines file_bytes p =
  (SystemExit 0,
   {| stdout := stdout p; stderr := stderr p;
      log_file := logged env (log_file p)
        (log_entry (now env) false file_lines file_bytes "passed" file_path) |}).
Proof.
  intros Hoff Hn. unfold main_rules.
  assert (((MAX_FILE_LINES <? file_lines) || (MAX_FILE_BYTES <? file_bytes))
          && (is_None offset || is_None (JInt n)) = false) as Hr1.
  { destruct Hoff as [[??] | ->]; [|by rewrite andb_false_r].
    rewrite (proj2 (Z.ltb_ge _ _)), (proj2 (Z.ltb_ge _ _)); done. }
  apply Z.ltb_ge in Hn.
  destruct ((MAX_FILE_LINES <? file_lines) || (MAX_FILE_BYTES <? file_bytes));
    destruct (is_None offset); try discriminate Hr1;
    cbv [mbind mret Py_bind Py_ret when is_None orb andb negb exceeds_read_lines];
    rewrite Hn; cbv [mbind Py_bind]; by rewrite log_stats_run.
Qed.

Lemma rules_pass_plain :
  file_lines ≤ MAX_FILE_LINES → file_bytes ≤ MAX_FILE_BYTES →
  main_rules env file_path JNull JNull file_lines file_bytes p =
  (SystemExit 0,
   {| stdout := stdout p; stderr := stderr p;
      log_file := logged env (log_file p)
        (log_entry (now env) false file_lines file_bytes "passed" file_path) |}).
Proof.
  intros Hl Hb. unfold main_rules.
  rewrite (proj2 (Z.ltb_ge _ _) Hl), (proj2 (Z.ltb_ge _ _) Hb).
  cbv [mbind mret Py_bind Py_ret when is_None orb andb negb].
  by rewrite log_stats_run.
Qed.

End Rules.

(** *** The fast bypasses *)

Lemma main_bypass env stdin p :
  fast_bypass env stdin → main env stdin p = (SystemExit 0, p).
Proof.
  intros [items Htool
         | items ti file_path offset limit (Htool & Hin & Hpath & _) Hskip
         | items ti file_path offset limit (Htool & Hin & Hpath & _) Hskip Hfs
         | items ti file_path offset limit pr (Htool & Hin & Hpath & _) Hskip Hfs Hpr].
  - unfold main. py_step. by rewrite Htool.
  - enter_read Htool Hin Hpath. unfold skipped in Hskip. by rewrite Hskip.
  - enter_read Htool Hin Hpath. unfold skipped in Hskip. rewrite Hskip.
    unfold os_path_exists. by rewrite Hfs.
  - enter_read Htool Hin Hpath. unfold skipped in Hskip. rewrite Hskip.
    unfold os_path_exists, get_file_line_count, get_file_size,
      open_lines, os_path_getsize.
    py_step. rewrite Hfs. destruct pr as [[ls|] [sz|]]; cbn in *; try done.
    by destruct Hpr.
Qed.

Lemma run_bypass env stdin log0 :
  fast_bypass env stdin → run env stdin log0 = (0, start log0).
Proof. intros H. unfold run. by rewrite main_bypass. Qed.

Lemma run_measured env items ti file_path offset limit file_lines file_bytes log0 :
  read_call items ti file_path offset limit →
  skipped (os_name env) file_path = false →
  metrics env file_path = Some (file_lines, file_bytes) →
  run env (Document (JDict items)) log0 =
  finish (main_rules env file_path offset limit file_lines file_bytes (start log0)).
Proof. intros. unfold run. by erewrite main_measured. Qed.


(** *** Every run ends in [sys.exit] or in an exception *)

Lemma main_rules_abrupt env file_path offset limit file_lines file_bytes p :
  abrupt (main_rules env file_path offset limit file_lines file_bytes p).1.
Proof.
  unfold main_rules, abrupt, exceeds_read_lines.
  destruct ((MAX_FILE_LINES <? file_lines) || (MAX_FILE_BYTES <? file_bytes)),
    (is_None offset), limit as [| [] | n | | |];
    try destruct (MAX_SINGLE_READ_LINES <? n);
    cbv [mbind mret Py_bind Py_ret when is_None orb andb negb
         raise sys_exit print_stderr print_json];
    cbn; rewrite ?log_stats_run; cbn; eauto 6.
Qed.

Lemma main_abrupt env stdin p : abrupt (main env stdin p).1.
Proof.
  unfold main.
  destruct stdin as [[| b | n | s | l | items] | e];
    try (cbn; unfold abrupt; by eauto 6).
  cbv [mbind mret Py_bind Py_ret py_get when sys_exit].
  destruct (py_ne_str _ _); [unfold abrupt; by eauto|].
  destruct (dict_get items "tool_input" _) as [| b | n | s | l | ti];
    try (cbn; unfold abrupt; by eauto 6).
  destruct (dict_get ti "file_path" _) as [| b | n | s | l | d];
    try (cbn; unfold abrupt; by eauto 6).
  cbv [fspath mret Py_ret].
  destruct (bool_decide _); [unfold abrupt; by eauto|].
  destruct (negb _); [unfold abrupt; by eauto|].
  unfold get_file_line_count, get_file_size, open_lines, os_path_getsize.
  destruct (fs env s) as [[[ls|] [sz|]]|]; cbn;
    try (unfold abrupt; by eauto).
  apply main_rules_abrupt.
Qed.

(** The exit status of every run is 0, 1 or 2. *)
Lemma run_status env stdin log0 :
  let code := (run env stdin log0).1 in
  code = 0 ∨ code = 1 ∨ code = 2.
Proof.
  unfold run. pose proof (main_abrupt env stdin (start log0)) as H.
  destruct (main env stdin (start log0)) as [r p].
  destruct H as [H | [H | [H | [exc H]]]]; cbn in H; subst r; cbn; auto.
Qed.

(** ** The mandatory paging rule *)



(** ** The request-size ceiling rule *)

(** C2, as stated, fails: a limit above [MAX_SINGLE_READ_LINES] is not
    blocked on a file whose extension is skipped.  The file exists and
    has 50 lines and 2 KB, the limit is 600, and the run ends with
    status 0, nothing printed and nothing logged. *)
Lemma ceiling_rule_skipped_extension :
  let ti := [("file_path", JStr "assets/logo.png"); ("limit", JInt 600)] in
  let env := sample_env "assets/logo.png" small_file in
  read_call (read_tool ti) ti "assets/logo.png" JNull (JInt 600) ∧
  MAX_SINGLE_READ_LINES < 600 ∧
  metrics env "assets/logo.png" = Some (50, 2048) ∧
  run env (Document (JDict (read_tool ti))) [] =
    (0, {| stdout := []; stderr := []; log_file := [] |}).
Proof. vm_compute. repeat split. Qed.

(** C2, amended.  On an existing file that is not skipped and whose
    probe succeeded, a call with an integer limit above
    [MAX_SINGLE_READ_LINES] is blocked (exit status 2) whatever the line
    count, the size and the offset are.  When rule 1 does not fire (the
    file is within both thresholds, or an offset is supplied), the block
    is the one of the ceiling rule and the diagnostic cites the requested
    limit against 500. *)
Theorem ceiling_rule_blocks env items ti file_path offset n
    file_lines file_bytes log0 :
  read_call items ti file_path offset (JInt n) →
  skipped (os_name env) file_path = false →
  metrics env file_path = Some (file_lines, file_bytes) →
  MAX_SINGLE_READ_LINES < n →
  (run env (Document (JDict items)) log0).1 = 2 ∧
  ((file_lines ≤ MAX_FILE_LINES ∧ file_bytes ≤ MAX_FILE_BYTES) ∨ offset ≠ JNull →
   run env (Document (JDict items)) log0 =
   (2, {| stdout := [];
          stderr :=
            ["BLOCKED: Requested limit=" +:+ str n
             +:+ " exceeds maximum 500 lines." +:+ nl
             +:+ "Please reduce the limit parameter to 500 or less."];
          log_file := logged env log0
            (log_entry (now env) true file_lines file_bytes
               ("limit too large: " +:+ str n) file_path) |})).
Proof.
  intros Hcall Hskip Hm Hn.
  rewrite (run_measured _ _ _ _ _ _ _ _ _ Hcall Hskip Hm).
  assert (∀ p,
    (file_lines ≤ MAX_FILE_LINES ∧ file_bytes ≤ MAX_FILE_BYTES) ∨ offset ≠ JNull →
    main_rules env file_path offset (JInt n) file_lines file_bytes p =
    (SystemExit 2,
     {| stdout := stdout p;
        stderr := stderr p ++ [ceiling_error_msg (str n)];
        log_file := logged env (log_file p)
          (log_entry (now env) true file_lines file_bytes
             ("limit too large: " +:+ str n) file_path) |})) as Hceil.
  { intros p [H | H]; apply rules_ceiling; auto using is_None_false. }
  split; [|intros H; by rewrite Hceil].
  destruct (is_None offset) eqn:Hoff;
    [apply is_None_true in Hoff as ->
    |rewrite Hceil; [done | right; by intros ->]].
  destruct (decide (file_lines ≤ MAX_FILE_LINES ∧ file_bytes ≤ MAX_FILE_BYTES))
    as [H | H]; [by rewrite Hceil; auto|].
  rewrite rules_paging; [done | lia | by left].
Qed.

(** Scenario 4: 50 lines, limit 600, no offset. *)
Lemma ceiling_rule_blocks_witness :
  run (sample_env "README.md" small_file)
      (Document (JDict (read_tool
         [("file_path", JStr "README.md"); ("limit", JInt 600)]))) [] =
  (2, {| stdout := [];
         stderr :=
           ["BLOCKED: Requested limit=600 exceeds maximum 500 lines." +:+ nl
            +:+ "Please reduce the limit parameter to 500 or less."];
         log_file :=
           ["2025-03-14 09:26:53 | BLOCKED | lines=50 bytes=2048 | "
            +:+ "limit too large: 600 | README.md" +:+ nl] |}).
Proof.
  apply (ceiling_rule_blocks
           (sample_env "README.md" small_file)
           (read_tool [("file_path", JStr "README.md"); ("limit", JInt 600)])
           [("file_path", JStr "README.md"); ("limit", JInt 600)]
           "README.md" JNull 600 50 2048 []).
  - repeat split.
  - vm_compute. reflexivity.
  - vm_compute. reflexivity.
  - vm_compute. reflexivity.
  - left. split; vm_compute; discriminate.
Defined.

(** ** The auto-completion rule *)

(** C3.  On an existing file that is not skipped and is within both
    thresholds (so that rule 1 does not block; rule 2 needs a limit), a
    call that supplies an offset and no limit is allowed with an amended
    input: exit status 0, and on standard output the document whose
    [updatedInput] sets [limit] to 500. *)
Theorem auto_completion_adds_limit env items ti file_path offset
    file_lines file_bytes log0 :
  read_call items ti file_path offset JNull →
  offset ≠ JNull →
  skipped (os_name env) file_path = false →
  metrics env file_path = Some (file_lines, file_bytes) →
  file_lines ≤ MAX_FILE_LINES →
  file_bytes ≤ MAX_FILE_BYTES →
  MAX_SINGLE_READ_LINES = 500 ∧
  run env (Document (JDict items)) log0 =
  (0, {| stdout :=
           [JDict [("hookSpecificOutput", JDict [
              ("hookEventName", JStr "PreToolUse");
              ("permissionDecision", JStr "allow");
              ("permissionDecisionReason",
                 JStr ("Auto-added limit=500 (file: " +:+ str file_lines
                       +:+ " lines, " +:+ format_bytes file_bytes +:+ ")"));
              ("updatedInput", JDict [("limit", JInt MAX_SINGLE_READ_LINES)])])]];
         stderr := [];
         log_file := logged env log0
           (log_entry (now env) false file_lines file_bytes
              "auto-added limit" file_path) |}).
Proof.
  intros Hcall Hoff Hskip Hm Hl Hb. split; [done|].
  rewrite (run_measured _ _ _ _ _ _ _ _ _ Hcall Hskip Hm).
  by rewrite rules_auto by auto using is_None_false.
Qed.

(** Scenario 3: 50 lines, 2 KB, offset 5, no limit. *)
Lemma auto_completion_adds_limit_witness :
  run (sample_env "README.md" small_file)
      (Document (JDict (read_tool
         [("file_path", JStr "README.md"); ("offset", JInt 5)]))) [] =
  (0, {| stdout :=
           [JDict [("hookSpecificOutput", JDict [
              ("hookEventName", JStr "PreToolUse");
              ("permissionDecision", JStr "allow");
              ("permissionDecisionReason",
                 JStr "Auto-added limit=500 (file: 50 lines, 2.0KB)");
              ("updatedInput", JDict [("limit", JInt 500)])])]];
         stderr := [];
         log_file :=
           ["2025-03-14 09:26:53 | ALLOWED | lines=50 bytes=2048 | "
            +:+ "auto-added limit | README.md" +:+ nl] |}).
Proof.
  apply (auto_completion_adds_limit
           (sample_env "README.md" small_file)
           (read_tool [("file_path", JStr "README.md"); ("offset", JInt 5)])
           [("file_path", JStr "README.md"); ("offset", JInt 5)]
           "README.md" (JInt 5) 50 2048 []).
  - repeat split.
  - discriminate.
  - vm_compute. reflexivity.
  - vm_compute. reflexivity.
  - vm_compute. discriminate.
  - vm_compute. discriminate.
Defined.

(** ** Files within the thresholds are never blocked *)

(** C4.  A call on a file of at most [MAX_FILE_LINES] lines and at most
    [MAX_FILE_BYTES] bytes, whose limit is absent or an integer of at
    most [MAX_SINGLE_READ_LINES], ends with status 0 and nothing on the
    error stream: standard output is empty (Allow) or holds the document
    that adds the limit (AllowWithAmendedInput); the status is never 2. *)
Theorem small_request_never_blocked env items ti file_path offset limit
    file_lines file_bytes log0 :
  read_call items ti file_path offset limit →
  metrics env file_path = Some (file_lines, file_bytes) →
  file_lines ≤ MAX_FILE_LINES →
  file_bytes ≤ MAX_FILE_BYTES →
  limit = JNull ∨ (∃ n, limit = JInt n ∧ n ≤ MAX_SINGLE_READ_LINES) →
  let r := run env (Document (JDict items)) log0 in
  r.1 = 0 ∧ r.1 ≠ 2 ∧ stderr r.2 = [] ∧
  (stdout r.2 = [] ∨ stdout r.2 = [auto_limit_output file_lines file_bytes]).
Proof.
  intros Hcall Hm Hl Hb Hlim r. subst r.
  destruct (skipped (os_name env) file_path) eqn:Hskip.
  { rewrite run_bypass
      by apply (bypass_extension env items ti file_path offset limit Hcall Hskip).
    cbn. auto. }
  rewrite (run_measured _ _ _ _ _ _ _ _ _ Hcall Hskip Hm).
  destruct Hlim as [-> | (n & -> & Hn)].
  - destruct (is_None offset) eqn:Hoff.
    + apply is_None_true in Hoff as ->.
      rewrite rules_pass_plain by done. cbn. auto.
    + rewrite rules_auto by done. cbn. auto.
  - rewrite rules_pass_limit by auto. cbn. auto.
Qed.

Lemma small_request_never_blocked_witness :
  let r :=
    run (sample_env "README.md" small_file)
        (Document (JDict (read_tool
           [("file_path", JStr "README.md"); ("limit", JInt 500)]))) [] in
  r.1 = 0 ∧ r.1 ≠ 2 ∧ stderr r.2 = [] ∧
  (stdout r.2 = [] ∨ stdout r.2 = [auto_limit_output 50 2048]).
Proof.
  apply (small_request_never_blocked
           (sample_env "README.md" small_file)
           (read_tool [("file_path", JStr "README.md"); ("limit", JInt 500)])
           [("file_path", JStr "README.md"); ("limit", JInt 500)]
           "README.md" JNull (JInt 500) 50 2048 []).
  - repeat split.
  - vm_compute. reflexivity.
  - vm_compute. discriminate.
  - vm_compute. discriminate.
  - right. exists 500. split; [reflexivity | vm_compute; discriminate].
Defined.

(** ** Paged reads of large files *)

(** C5.  On an existing file that is not skipped and exceeds a file
    threshold, a call that supplies both an offset and a limit of at
    most [MAX_SINGLE_READ_LINES] is not stopped by rule 1: it is allowed,
    with status 0, nothing printed, and the log reason [passed]. *)
Theorem paged_read_allowed env items ti file_path o n
    file_lines file_bytes log0 :
  read_call items ti file_path (JInt o) (JInt n) →
  skipped (os_name env) file_path = false →
  metrics env file_path = Some (file_lines, file_bytes) →
  MAX_FILE_LINES < file_lines ∨ MAX_FILE_BYTES < file_bytes →
  n ≤ MAX_SINGLE_READ_LINES →
  run env (Document (JDict items)) log0 =
  (0, {| stdout := []; stderr := [];
         log_file := logged env log0
           (log_entry (now env) false file_lines file_bytes "passed" file_path) |}).
Proof.
  intros Hcall Hskip Hm _ Hn.
  rewrite (run_measured _ _ _ _ _ _ _ _ _ Hcall Hskip Hm).
  by rewrite rules_pass_limit by auto.
Qed.

(** Scenario 2: 800 lines, 60 KB, offset 10, limit 50. *)
Lemma paged_read_allowed_witness :
  run (sample_env "data/events.csv" heavy_file)
      (Document (JDict (read_tool
         [("file_path", JStr "data/events.csv");
          ("offset", JInt 10); ("limit", JInt 50)]))) [] =
  (0, {| stdout := []; stderr := [];
         log_file :=
           ["2025-03-14 09:26:53 | ALLOWED | lines=800 bytes=61440 | "
            +:+ "passed | data/events.csv" +:+ nl] |}).
Proof.
  apply (paged_read_allowed
           (sample_env "data/events.csv" heavy_file)
           (read_tool [("file_path", JStr "data/events.csv");
                       ("offset", JInt 10); ("limit", JInt 50)])
           [("file_path", JStr "data/events.csv");
            ("offset", JInt 10); ("limit", JInt 50)]
           "data/events.csv" 10 50 800 61440 []).
  - repeat split.
  - vm_compute. reflexivity.
  - vm_compute. reflexivity.
  - right. vm_compute. reflexivity.
  - vm_compute. discriminate.
Defined.

(** ** Failing open *)

(** C6.  On an existing file that is not skipped and whose line count or
    size cannot be determined, the run ends with status 0, prints
    nothing and logs nothing, whatever the offset and the limit are. *)
Theorem probe_failure_allows env items ti file_path offset limit pr log0 :
  read_call items ti file_path offset limit →
  skipped (os_name env) file_path = false →
  fs env file_path = Some pr →
  f_lines pr = None ∨ f_size pr = None →
  run env (Document (JDict items)) log0 =
  (0, {| stdout := []; stderr := []; log_file := log0 |}).
Proof.
  intros Hcall Hskip Hfs Hpr. apply run_bypass.
  by apply (bypass_probe env items ti file_path offset limit pr).
Qed.

(** A file whose content cannot be read (permission denied), asked for
    with a limit above the ceiling. *)
Lemma probe_failure_allows_witness :
  run (sample_env "secrets/id_rsa" {| f_lines := None; f_size := Some 1675 |})
      (Document (JDict (read_tool
         [("file_path", JStr "secrets/id_rsa"); ("limit", JInt 9000)]))) ["earlier"] =
  (0, {| stdout := []; stderr := []; log_file := ["earlier"] |}).
Proof.
  apply (probe_failure_allows
           (sample_env "secrets/id_rsa" {| f_lines := None; f_size := Some 1675 |})
           (read_tool [("file_path", JStr "secrets/id_rsa"); ("limit", JInt 9000)])
           [("file_path", JStr "secrets/id_rsa"); ("limit", JInt 9000)]
           "secrets/id_rsa" JNull (JInt 9000)
           {| f_lines := None; f_size := Some 1675 |} ["earlier"]).
  - repeat split.
  - vm_compute. reflexivity.
  - vm_compute. reflexivity.
  - left. reflexivity.
Defined.

(** ** The byte ceiling of a single read *)

(** C7.  [MAX_SINGLE_READ_BYTES] bounds nothing: a file of 400 lines of
    60 bytes each (24000 bytes, above the 20480 of the ceiling and below
    [MAX_FILE_BYTES]) is read whole, or through an offset and a limit of
    400 lines, and both calls are allowed. *)
Theorem byte_ceiling_not_enforced :
  let env := sample_env "notes/minutes.txt" (ascii_file (text_lines 400 60)) in
  let whole := read_tool [("file_path", JStr "notes/minutes.txt")] in
  let paged := read_tool [("file_path", JStr "notes/minutes.txt");
                          ("offset", JInt 0); ("limit", JInt 400)] in
  let allowed :=
    (0, {| stdout := []; stderr := [];
           log_file :=
             ["2025-03-14 09:26:53 | ALLOWED | lines=400 bytes=24000 | "
              +:+ "passed | notes/minutes.txt" +:+ nl] |}) in
  metrics env "notes/minutes.txt" = Some (400, 24000) ∧
  MAX_SINGLE_READ_BYTES < 24000 ∧
  run env (Document (JDict whole)) [] = allowed ∧
  run env (Document (JDict paged)) [] = allowed.
Proof. vm_compute. repeat split. Qed.

(** ** The statistics log *)

(** C8, as stated, fails: the fast bypasses leave the log as it was,
    although the log is writable.  One invocation of each kind: another
    tool, a skipped extension, a file that does not exist, a file that
    cannot be read. *)
Lemma bypass_writes_no_log_line :
  let env := sample_env "src/app.py" {| f_lines := None; f_size := Some 4096 |} in
  let quiet := (0, {| stdout := []; stderr := []; log_file := ["earlier"] |}) in
  log_writable env = true ∧
  run env (Document (JDict [("tool_name", JStr "Bash");
                            ("tool_input", JDict [("command", JStr "ls")])]))
      ["earlier"] = quiet ∧
  run env (Document (JDict (read_tool [("file_path", JStr "img/logo.PNG")])))
      ["earlier"] = quiet ∧
  run env (Document (JDict (read_tool [("file_path", JStr "src/gone.py")])))
      ["earlier"] = quiet ∧
  run env (Document (JDict (read_tool [("file_path", JStr "src/app.py")])))
      ["earlier"] = quiet.
Proof. vm_compute. repeat split. Qed.

(** C8, amended.  A call of the Read tool on an existing file that is
    not skipped and whose probe succeeded, with a limit that is absent or
    an integer, appends exactly one line to the log when the log is
    writable (and none when it is not).  The line holds the time stamp,
    BLOCKED when the exit status is 2 and ALLOWED otherwise, the line
    count and the byte size, one of the four reasons, and the path.  A
    fast bypass appends nothing. *)
Theorem audit_log_line env log0 :
  (∀ items ti file_path offset limit file_lines file_bytes,
     read_call items ti file_path offset limit →
     skipped (os_name env) file_path = false →
     metrics env file_path = Some (file_lines, file_bytes) →
     limit = JNull ∨ (∃ n, limit = JInt n) →
     let r := run env (Document (JDict items)) log0 in
     ∃ reason,
       log_file r.2 =
         logged env log0
           (now env +:+ " | "
            +:+ (if bool_decide (r.1 = 2) then "BLOCKED" else "ALLOWED")
            +:+ " | lines=" +:+ str file_lines
            +:+ " bytes=" +:+ str file_bytes
            +:+ " | " +:+ reason +:+ " | " +:+ file_path +:+ nl) ∧
       (reason = "missing offset/limit: " +:+ paging_reason file_lines file_bytes ∨
        (∃ n, limit = JInt n ∧ reason = "limit too large: " +:+ str n) ∨
        reason = "auto-added limit" ∨
        reason = "passed")) ∧
  (∀ stdin, fast_bypass env stdin → log_file (run env stdin log0).2 = log0).
Proof.
  split; [|intros stdin H; by rewrite run_bypass].
  intros items ti file_path offset limit file_lines file_bytes
    Hcall Hskip Hm Hlim r. subst r.
  rewrite (run_measured _ _ _ _ _ _ _ _ _ Hcall Hskip Hm).
  destruct (decide (file_lines ≤ MAX_FILE_LINES ∧ file_bytes ≤ MAX_FILE_BYTES))
    as [[Hl Hb] | Hex].
  - destruct Hlim as [-> | [n ->]].
    + destruct (is_None offset) eqn:Hoff.
      * apply is_None_true in Hoff as ->. rewrite rules_pass_plain by done.
        exists "passed". cbn. auto.
      * rewrite rules_auto by done. exists "auto-added limit". cbn. auto.
    + destruct (decide (n ≤ MAX_SINGLE_READ_LINES)).
      * rewrite rules_pass_limit by auto. exists "passed". cbn. auto.
      * rewrite rules_ceiling by (auto; lia).
        exists ("limit too large: " +:+ str n). cbn. eauto 6.
  - assert (MAX_FILE_LINES < file_lines ∨ MAX_FILE_BYTES < file_bytes) by lia.
    destruct (is_None offset) eqn:Hoff.
    { apply is_None_true in Hoff as ->. rewrite rules_paging by auto.
      eexists. cbn. auto. }
    destruct Hlim as [-> | [n ->]].
    { rewrite rules_paging by auto. eexists. cbn. auto. }
    destruct (decide (n ≤ MAX_SINGLE_READ_LINES)).
    + rewrite rules_pass_limit by auto. exists "passed". cbn. auto.
    + rewrite rules_ceiling by (auto; lia).
      exists ("limit too large: " +:+ str n). cbn. eauto 6.
Qed.

(** One measured call of each outcome appends its line. *)
Lemma audit_log_line_witness :
  ∃ reason,
    log_file
      (run (sample_env "src/parser.py" long_file)
           (Document (JDict (read_tool [("file_path", JStr "src/parser.py")])))
           ["earlier"]).2 =
    ["earlier";
     "2025-03-14 09:26:53 | BLOCKED | lines=1200 bytes=10240 | "
     +:+ reason +:+ " | src/parser.py" +:+ nl] ∧
    (reason = "missing offset/limit: " +:+ paging_reason 1200 10240 ∨
     (∃ n, JNull = JInt n ∧ reason = "limit too large: " +:+ str n) ∨
     reason = "auto-added limit" ∨
     reason = "passed").
Proof.
  apply (proj1 (audit_log_line (sample_env "src/parser.py" long_file) ["earlier"])
           (read_tool [("file_path", JStr "src/parser.py")])
           [("file_path", JStr "src/parser.py")]
           "src/parser.py" JNull JNull 1200 10240).
  - repeat split.
  - vm_compute. reflexivity.
  - vm_compute. reflexivity.
  - left. reflexivity.
Defined.

(** ** Malformed input *)

(** C9.  When standard input is not valid JSON the run ends with exit
    status 1, with the hook error on the error stream, nothing on
    standard output and no log line.  That status is neither 0 nor 2,
    and every run ends with exactly one of the statuses 0, 1 and 2. *)
Theorem malformed_input_exit env e log0 :
  run env (Invalid e) log0 =
    (1, {| stdout := [];
           stderr := ["[Hook Error] Invalid JSON: " +:+ e];
           log_file := log0 |}) ∧
  (run env (Invalid e) log0).1 ≠ 0 ∧
  (run env (Invalid e) log0).1 ≠ 2 ∧
  ∀ stdin,
    let code := (run env stdin log0).1 in
    code = 0 ∨ code = 1 ∨ code = 2.
Proof.
  repeat split; try done.
  intros stdin code. apply run_status.
Qed.

(** ** An offset of zero *)

(** C10.  An offset of 0 counts as supplied.  On a file that exceeds a
    threshold, offset 0 together with an integer limit keeps rule 1 from
    firing: the call is decided by the limit alone.  On a file within
    the thresholds, offset 0 without a limit gets the limit 500 added
    instead of being passed through. *)
Theorem zero_offset_is_supplied env items ti file_path limit
    file_lines file_bytes log0 :
  read_call items ti file_path (JInt 0) limit →
  skipped (os_name env) file_path = false →
  metrics env file_path = Some (file_lines, file_bytes) →
  (∀ n, limit = JInt n →
     MAX_FILE_LINES < file_lines ∨ MAX_FILE_BYTES < file_bytes →
     run env (Document (JDict items)) log0 =
     if bool_decide (n ≤ MAX_SINGLE_READ_LINES)
     then (0, {| stdout := []; stderr := [];
                 log_file := logged env log0
                   (log_entry (now env) false file_lines file_bytes
                      "passed" file_path) |})
     else (2, {| stdout := []; stderr := [ceiling_error_msg (str n)];
                 log_file := logged env log0
                   (log_entry (now env) true file_lines file_bytes
                      ("limit too large: " +:+ str n) file_path) |})) ∧
  (limit = JNull →
     file_lines ≤ MAX_FILE_LINES → file_bytes ≤ MAX_FILE_BYTES →
     run env (Document (JDict items)) log0 =
     (0, {| stdout := [auto_limit_output file_lines file_bytes];
            stderr := [];
            log_file := logged env log0
              (log_entry (now env) false file_lines file_bytes
                 "auto-added limit" file_path) |}) ∧
     updated_limit (auto_limit_output file_lines file_bytes) = JInt 500).
Proof.
  intros Hcall Hskip Hm.
  rewrite (run_measured _ _ _ _ _ _ _ _ _ Hcall Hskip Hm). split.
  - intros n -> _. case_bool_decide.
    + by rewrite rules_pass_limit by auto.
    + by rewrite rules_ceiling by (auto; lia).
  - intros -> Hl Hb. by rewrite rules_auto by done.
Qed.

(** Offset 0 and limit 50 on the file of 800 lines and 60 KB; offset 0
    alone on the file of 50 lines. *)
Lemma zero_offset_is_supplied_witness :
  run (sample_env "data/events.csv" heavy_file)
      (Document (JDict (read_tool
         [("file_path", JStr "data/events.csv");
          ("offset", JInt 0); ("limit", JInt 50)]))) [] =
  (0, {| stdout := []; stderr := [];
         log_file :=
           ["2025-03-14 09:26:53 | ALLOWED | lines=800 bytes=61440 | "
            +:+ "passed | data/events.csv" +:+ nl] |}) ∧
  run (sample_env "README.md" small_file)
      (Document (JDict (read_tool
         [("file_path", JStr "README.md"); ("offset", JInt 0)]))) [] =
  (0, {| stdout := [auto_limit_output 50 2048];
         stderr := [];
         log_file :=
           ["2025-03-14 09:26:53 | ALLOWED | lines=50 bytes=2048 | "
            +:+ "auto-added limit | README.md" +:+ nl] |}).
Proof.
  split.
  - apply (proj1 (zero_offset_is_supplied
             (sample_env "data/events.csv" heavy_file)
             (read_tool [("file_path", JStr "data/events.csv");
                         ("offset", JInt 0); ("limit", JInt 50)])
             [("file_path", JStr "data/events.csv");
              ("offset", JInt 0); ("limit", JInt 50)]
             "data/events.csv" (JInt 50) 800 61440 []
             ltac:(repeat split)
             ltac:(vm_compute; reflexivity)
             ltac:(vm_compute; reflexivity)) 50).
    + reflexivity.
    + right. vm_compute. reflexivity.
  - apply (proj2 (zero_offset_is_supplied
             (sample_env "README.md" small_file)
             (read_tool [("file_path", JStr "README.md"); ("offset", JInt 0)])
             [("file_path", JStr "README.md"); ("offset", JInt 0)]
             "README.md" JNull 50 2048 []
             ltac:(repeat split)
             ltac:(vm_compute; reflexivity)
             ltac:(vm_compute; reflexivity))).
    + reflexivity.
    + vm_compute. discriminate.
    + vm_compute. discriminate.
Defined.

(** * Further properties of the script *)

(** ** [format_bytes] *)

Lemma round_half_even_near a b :
  0 < b → 2 * Z.abs (a - b * round_half_even a b) ≤ b.
Proof.
  intros Hb. unfold round_half_even.
  pose proof (Z.div_mod a b ltac:(lia)) as Hdm.
  pose proof (Z.mod_pos_bound a b Hb) as Hr.
  destruct (Z.ltb_spec (2 * (a mod b)) b), (Z.ltb_spec b (2 * (a mod b)));
    try destruct (Z.even (a / b)); lia.
Qed.

Lemma to_float_exact n : n < 2 ^ 53 → to_float n = n.
Proof. intros Hn. unfold to_float. by rewrite (proj2 (Z.ltb_lt _ _) Hn). Qed.

Lemma format_bytes_kb size :
  1024 ≤ size < 1024 * 1024 →
  format_bytes size =
    let tenths := round_half_even (10 * size) 1024 in
    (str (tenths / 10) +:+ "." +:+ str (tenths mod 10)) +:+ "KB".
Proof.
  intros [Hlo Hhi]. unfold format_bytes, fmt_div_1f.
  rewrite (proj2 (Z.leb_gt _ _) Hhi), (proj2 (Z.leb_le _ _) Hlo).
  rewrite to_float_exact; [done|].
  assert (1024 * 1024 < 2 ^ 53) by done. lia.
Qed.

(** X1.  From 1 KB up to (not including) 1 MB [format_bytes] shows the
    size in KB with one decimal: the tenths shown are a nearest integer
    to the size in tenths of a KB, between 1.0 and 1024.0. *)
Theorem format_bytes_kilobytes size :
  1024 ≤ size < 1024 * 1024 →
  ∃ tenths,
    format_bytes size =
      (str (tenths / 10) +:+ "." +:+ str (tenths mod 10)) +:+ "KB" ∧
    2 * Z.abs (10 * size - 1024 * tenths) ≤ 1024 ∧
    10 ≤ tenths ≤ 10240.
Proof.
  intros Hsize. exists (round_half_even (10 * size) 1024).
  pose proof (round_half_even_near (10 * size) 1024 ltac:(lia)) as Hnear.
  split; [by rewrite format_bytes_kb | split; [done | lia]].
Qed.

(** 1280 bytes are 1.25 KB and show as 1.2KB. *)
Lemma format_bytes_kilobytes_witness :
  ∃ tenths,
    format_bytes 1280 =
      (str (tenths / 10) +:+ "." +:+ str (tenths mod 10)) +:+ "KB" ∧
    2 * Z.abs (10 * 1280 - 1024 * tenths) ≤ 1024 ∧
    10 ≤ tenths ≤ 10240.
Proof. apply format_bytes_kilobytes. lia. Defined.

(** X2.  From 1 MB on (and below [2^53] bytes, where every size is a
    float) [format_bytes] shows the size in MB with one decimal, the
    tenths being a nearest integer to the size in tenths of a MB. *)
Theorem format_bytes_megabytes size :
  1024 * 1024 ≤ size < 2 ^ 53 →
  ∃ tenths,
    format_bytes size =
      (str (tenths / 10) +:+ "." +:+ str (tenths mod 10)) +:+ "MB" ∧
    2 * Z.abs (10 * size - 1024 * 1024 * tenths) ≤ 1024 * 1024 ∧
    10 ≤ tenths.
Proof.
  intros [Hlo Hhi]. exists (round_half_even (10 * size) (1024 * 1024)).
  pose proof (round_half_even_near (10 * size) (1024 * 1024) ltac:(lia)) as Hnear.
  split; [|split; [done | lia]].
  unfold format_bytes, fmt_div_1f.
  rewrite (proj2 (Z.leb_le _ _) Hlo).
  by rewrite to_float_exact.
Qed.

Lemma format_bytes_megabytes_witness :
  ∃ tenths,
    format_bytes 2048000 =
      (str (tenths / 10) +:+ "." +:+ str (tenths mod 10)) +:+ "MB" ∧
    2 * Z.abs (10 * 2048000 - 1024 * 1024 * tenths) ≤ 1024 * 1024 ∧
    10 ≤ tenths.
Proof. apply format_bytes_megabytes. split; [lia | done]. Defined.

(** X3.  The unit changes at the size, not at what is shown: the last 51
    sizes below 1 MB round up and show as 1024.0KB. *)
Theorem format_bytes_kilobyte_ceiling size :
  1048525 ≤ size < 1024 * 1024 → format_bytes size = "1024.0KB".
Proof.
  intros [Hlo Hhi]. rewrite format_bytes_kb by lia.
  pose proof (round_half_even_near (10 * size) 1024 ltac:(lia)) as Hnear.
  assert (round_half_even (10 * size) 1024 = 10240) as -> by lia.
  reflexivity.
Qed.

Lemma format_bytes_kilobyte_ceiling_witness :
  format_bytes 1048575 = "1024.0KB".
Proof. apply format_bytes_kilobyte_ceiling. lia. Defined.

(** ** The shapes of a run *)

Lemma main_rules_outcome env file_path offset limit file_lines file_bytes log0 :
  outcome env log0
    (finish (main_rules env file_path offset limit file_lines file_bytes (start log0))).
Proof.
  unfold main_rules, exceeds_read_lines.
  destruct ((MAX_FILE_LINES <? file_lines) || (MAX_FILE_BYTES <? file_bytes)),
    (is_None offset), limit as [| [] | n | | |];
    try destruct (MAX_SINGLE_READ_LINES <? n);
    cbv [mbind mret Py_bind Py_ret when is_None orb andb negb
         raise sys_exit print_stderr print_json];
    cbn; rewrite ?log_stats_run; cbn; by constructor.
Qed.

Lemma run_outcome env stdin log0 : outcome env log0 (run env stdin log0).
Proof.
  unfold run, main.
  destruct stdin as [[| b | n | s | l | items] | e];
    try (cbn; by constructor).
  cbv [mbind mret Py_bind Py_ret py_get when sys_exit].
  destruct (py_ne_str _ _); [cbn; by constructor|].
  destruct (dict_get items "tool_input" _) as [| b | n | s | l | ti];
    try (cbn; by constructor).
  destruct (dict_get ti "file_path" _) as [| b | n | s | l | d];
    try (cbn; by constructor).
  cbv [fspath mret Py_ret].
  destruct (bool_decide _); [cbn; by constructor|].
  destruct (negb _); [cbn; by constructor|].
  unfold get_file_line_count, get_file_size, open_lines, os_path_getsize.
  destruct (fs env s) as [[[ls|] [sz|]]|]; cbn; try by constructor.
  apply main_rules_outcome.
Qed.

Lemma main_rules_same_answer env env' file_path offset limit
    file_lines file_bytes log0 log0' :
  same_answer
    (finish (main_rules env file_path offset limit file_lines file_bytes (start log0)))
    (finish (main_rules env' file_path offset limit file_lines file_bytes (start log0'))).
Proof.
  unfold main_rules, exceeds_read_lines, same_answer.
  destruct ((MAX_FILE_LINES <? file_lines) || (MAX_FILE_BYTES <? file_bytes)),
    (is_None offset), limit as [| [] | n | | |];
    try destruct (MAX_SINGLE_READ_LINES <? n);
    cbv [mbind mret Py_bind Py_ret when is_None orb andb negb
         raise sys_exit print_stderr print_json];
    cbn; rewrite ?log_stats_run; cbn; done.
Qed.

(** X5.  The exit status, standard output and the error stream of a run do
    not depend on the log: not on what it holds, not on whether it can be
    written, not on the clock that stamps its lines. *)
Theorem answer_independent_of_log env env' stdin log0 log0' :
  os_name env = os_name env' →
  (∀ path, fs env path = fs env' path) →
  same_answer (run env stdin log0) (run env' stdin log0').
Proof.
  intros Hos Hfs. unfold run, main.
  destruct stdin as [[| b | n | s | l | items] | e]; try (cbn; done).
  cbv [mbind mret Py_bind Py_ret py_get when sys_exit].
  destruct (py_ne_str _ _); [cbn; done|].
  destruct (dict_get items "tool_input" _) as [| b | n | s | l | ti];
    try (cbn; done).
  destruct (dict_get ti "file_path" _) as [| b | n | s | l | d];
    try (cbn; done).
  cbv [fspath mret Py_ret]. rewrite <-Hos.
  destruct (bool_decide _); [cbn; done|].
  unfold os_path_exists, get_file_line_count, get_file_size,
    open_lines, os_path_getsize.
  rewrite <-Hfs.
  destruct (fs env s) as [[[ls|] [sz|]]|]; cbn; try done.
  apply main_rules_same_answer.
Qed.

Lemma answer_independent_of_log_witness :
  same_answer
    (run (sample_env "src/parser.py" long_file)
         (Document (JDict (read_tool [("file_path", JStr "src/parser.py")]))) [])
    (run {| os_name := Posix; fs := single_file "src/parser.py" long_file;
            now := "1999-12-31 23:59:59"; log_writable := false |}
         (Document (JDict (read_tool [("file_path", JStr "src/parser.py")])))
         ["earlier"]).
Proof.
  apply (answer_independent_of_log
           (sample_env "src/parser.py" long_file)
           {| os_name := Posix; fs := single_file "src/parser.py" long_file;
              now := "1999-12-31 23:59:59"; log_writable := false |}).
  - reflexivity.
  - intros path. reflexivity.
Defined.

(** X7.  Every run keeps the channels apart: status 0 leaves the error stream
    empty and prints at most one document; status 2 prints nothing and
    puts one diagnostic on the error stream; status 1 prints nothing and
    leaves the log as it was. *)
Theorem run_channels env stdin log0 :
  let r := run env stdin log0 in
  (r.1 = 0 → stderr r.2 = [] ∧ (length (stdout r.2) ≤ 1)%nat) ∧
  (r.1 = 2 → stdout r.2 = [] ∧ length (stderr r.2) = 1%nat) ∧
  (r.1 = 1 → stdout r.2 = [] ∧ log_file r.2 = log0).
Proof.
  intros r. subst r. destruct (run_outcome env stdin log0); cbn;
    repeat split; intros; try done; try (cbn; lia).
Qed.

(** X6.  The log is only ever appended to, by at most one line per run: none
    when the log cannot be written, and one whenever a run with a
    writable log blocks. *)
Theorem log_append_only env stdin log0 :
  let r := run env stdin log0 in
  ∃ tail,
    log_file r.2 = (log0 ++ tail)%list ∧
    (length tail ≤ 1)%nat ∧
    (log_writable env = false → tail = []) ∧
    (r.1 = 2 → log_writable env = true → length tail = 1%nat).
Proof.
  intros r. subst r.
  destruct (run_outcome env stdin log0); unfold logged; cbn;
    [exists []; rewrite app_nil_r | exists []; rewrite app_nil_r
    | eexists; split; [done|] ..];
    destruct (log_writable env); cbn;
    repeat split; intros; try done; try lia.
Qed.

(** *** The early exits of [main] *)

Lemma py_ne_str_true v s : v ≠ JStr s → py_ne_str v s = true.
Proof.
  destruct v as [| | | t | |]; cbn; try done.
  intros H. apply negb_true_iff, String.eqb_neq. by intros ->.
Qed.

(** X8.  A document that names another tool, or no tool at all, is let
    through with status 0, nothing printed and nothing logged, whatever
    else it holds: [tool_input] is never looked at. *)
Theorem other_tool_passes env items log0 :
  dict_get items "tool_name" (JStr EmptyString) ≠ JStr "Read" →
  run env (Document (JDict items)) log0 =
  (0, {| stdout := []; stderr := []; log_file := log0 |}).
Proof.
  intros H. apply run_bypass, bypass_tool. by apply py_ne_str_true.
Qed.

(** A document without [tool_name], whose [tool_input] is not even an
    object. *)
Lemma other_tool_passes_witness :
  run (sample_env "src/parser.py" long_file)
      (Document (JDict [("tool_input", JStr "src/parser.py")])) ["earlier"] =
  (0, {| stdout := []; stderr := []; log_file := ["earlier"] |}).
Proof.
  apply other_tool_passes. cbn. discriminate.
Defined.

(** X9.  A path with a skipped extension is let through without the file
    system being asked: the run is the same whether the file exists,
    whatever its size, and whatever offset and limit are. *)
Theorem skipped_extension_passes env items ti file_path offset limit log0 :
  read_call items ti file_path offset limit →
  skipped (os_name env) file_path = true →
  run env (Document (JDict items)) log0 =
  (0, {| stdout := []; stderr := []; log_file := log0 |}).
Proof.
  intros Hcall Hskip. apply run_bypass.
  by apply (bypass_extension env items ti file_path offset limit).
Qed.

(** A PDF that is not there, asked for with a limit that is a string. *)
Lemma skipped_extension_passes_witness :
  run (sample_env "src/parser.py" long_file)
      (Document (JDict (read_tool
         [("file_path", JStr "docs/Manual.PDF"); ("limit", JStr "all")]))) [] =
  (0, {| stdout := []; stderr := []; log_file := [] |}).
Proof.
  apply (skipped_extension_passes
           (sample_env "src/parser.py" long_file)
           (read_tool [("file_path", JStr "docs/Manual.PDF"); ("limit", JStr "all")])
           [("file_path", JStr "docs/Manual.PDF"); ("limit", JStr "all")]
           "docs/Manual.PDF" JNull (JStr "all") []).
  - repeat split.
  - vm_compute. reflexivity.
Defined.

(** X10.  A path that does not exist is let through, whatever offset and limit
    are; so is a call without [file_path], whose path is the empty
    string, when no file has that name. *)
Theorem missing_file_passes env items ti file_path offset limit log0 :
  read_call items ti file_path offset limit →
  skipped (os_name env) file_path = false →
  fs env file_path = None →
  run env (Document (JDict items)) log0 =
  (0, {| stdout := []; stderr := []; log_file := log0 |}).
Proof.
  intros Hcall Hskip Hfs. apply run_bypass.
  by apply (bypass_missing env items ti file_path offset limit).
Qed.

(** A call with a limit above the ceiling and no [file_path] at all. *)
Lemma missing_file_passes_witness :
  run (sample_env "src/parser.py" long_file)
      (Document (JDict (read_tool [("limit", JInt 9000)]))) [] =
  (0, {| stdout := []; stderr := []; log_file := [] |}).
Proof.
  apply (missing_file_passes
           (sample_env "src/parser.py" long_file)
           (read_tool [("limit", JInt 9000)])
           [("limit", JInt 9000)]
           EmptyString JNull (JInt 9000) []).
  - repeat split.
  - vm_compute. reflexivity.
  - reflexivity.
Defined.

(** *** Documents that are not calls *)

(** X11.  Valid JSON that is not an object has no [get]: the run fails with
    status 1, prints nothing to standard output and logs nothing. *)
Theorem non_object_document_fails env v log0 :
  (∀ items, v ≠ JDict items) →
  let r := run env (Document v) log0 in
  r.1 = 1 ∧ stdout r.2 = [] ∧ log_file r.2 = log0.
Proof.
  intros Hv r. subst r. destruct v; try done. by destruct (Hv items).
Qed.

Lemma non_object_document_fails_witness :
  let r := run (sample_env "src/parser.py" long_file)
               (Document (JList [JStr "Read"; JStr "src/parser.py"])) [] in
  r.1 = 1 ∧ stdout r.2 = [] ∧ log_file r.2 = [].
Proof.
  apply (non_object_document_fails (sample_env "src/parser.py" long_file)
           (JList [JStr "Read"; JStr "src/parser.py"]) []).
  intros items. discriminate.
Defined.

(** X12.  A call of the Read tool whose [tool_input] is not an object, or whose
    [file_path] is not a string, fails with status 1 before any file is
    looked at; nothing is printed to standard output or logged. *)
Theorem ill_formed_read_call_fails env items log0 :
  dict_get items "tool_name" (JStr EmptyString) = JStr "Read" →
  (∀ ti, dict_get items "tool_input" (JDict []) = JDict ti →
         ∀ s, dict_get ti "file_path" (JStr EmptyString) ≠ JStr s) →
  let r := run env (Document (JDict items)) log0 in
  r.1 = 1 ∧ stdout r.2 = [] ∧ log_file r.2 = log0.
Proof.
  intros Htool Hbad r. subst r. unfold run, main. py_step. rewrite Htool.
  cbn [py_ne_str String.eqb Ascii.eqb Bool.eqb negb].
  destruct (dict_get items "tool_input" _) as [| b | n | s | l | ti]; try done.
  specialize (Hbad ti eq_refl).
  destruct (dict_get ti "file_path" _) as [| b | n | s | l | d]; try done.
  by destruct (Hbad s).
Qed.

(** [tool_input] given as the bare path; [file_path] given as a list. *)
Lemma ill_formed_read_call_fails_witness :
  (let r := run (sample_env "src/parser.py" long_file)
                (Document (JDict [("tool_name", JStr "Read");
                                  ("tool_input", JStr "src/parser.py")])) [] in
   r.1 = 1 ∧ stdout r.2 = [] ∧ log_file r.2 = []) ∧
  (let r := run (sample_env "src/parser.py" long_file)
                (Document (JDict (read_tool
                   [("file_path", JList [JStr "src/parser.py"])]))) [] in
   r.1 = 1 ∧ stdout r.2 = [] ∧ log_file r.2 = []).
Proof.
  split.
  - apply (ill_formed_read_call_fails (sample_env "src/parser.py" long_file)
             [("tool_name", JStr "Read"); ("tool_input", JStr "src/parser.py")] []).
    + reflexivity.
    + intros ti. discriminate.
  - apply (ill_formed_read_call_fails (sample_env "src/parser.py" long_file)
             (read_tool [("file_path", JList [JStr "src/parser.py"])]) []).
    + reflexivity.
    + intros ti [= <-] s. discriminate.
Defined.

(** *** The probes *)

(** X4.  The two probes never raise and print nothing: what they cannot
    measure is answered by [None], a line count is the number of lines
    read and so not negative, and a size is what the system reports. *)
Theorem probes_never_raise env file_path p :
  ∃ lines size,
    get_file_line_count env file_path p = (Normal lines, p) ∧
    get_file_size env file_path p = (Normal size, p) ∧
    lines = (λ f, Z.of_nat (length f)) <$> (fs env file_path ≫= f_lines) ∧
    size = fs env file_path ≫= f_size ∧
    (∀ n, lines = Some n → 0 ≤ n).
Proof.
  unfold get_file_line_count, get_file_size, open_lines, os_path_getsize.
  py_step.
  destruct (fs env file_path) as [[[ls|] [sz|]]|]; cbn;
    eexists _, _; repeat split; intros n [= <-]; lia.
Qed.

(** *** The rules on limits that are not numbers *)

(** X13.  A limit that is a string, a list or an object cannot be compared
    with the ceiling: unless rule 1 blocks first, the run fails with
    status 1, prints nothing to standard output and logs nothing. *)
Theorem non_numeric_limit_fails env items ti file_path offset limit
    file_lines file_bytes log0 :
  read_call items ti file_path offset limit →
  skipped (os_name env) file_path = false →
  metrics env file_path = Some (file_lines, file_bytes) →
  (∃ s, limit = JStr s) ∨ (∃ l, limit = JList l) ∨ (∃ d, limit = JDict d) →
  (file_lines ≤ MAX_FILE_LINES ∧ file_bytes ≤ MAX_FILE_BYTES) ∨ offset ≠ JNull →
  let r := run env (Document (JDict items)) log0 in
  r.1 = 1 ∧ stdout r.2 = [] ∧ log_file r.2 = log0.
Proof.
  intros Hcall Hskip Hm Hlim Hr1 r. subst r.
  rewrite (run_measured _ _ _ _ _ _ _ _ _ Hcall Hskip Hm).
  unfold main_rules.
  assert (((MAX_FILE_LINES <? file_lines) || (MAX_FILE_BYTES <? file_bytes))
          && (is_None offset || is_None limit) = false) as Hoff.
  { destruct Hr1 as [[??] | H].
    - rewrite (proj2 (Z.ltb_ge _ _)), (proj2 (Z.ltb_ge _ _)); done.
    - rewrite (is_None_false offset H).
      destruct Hlim as [[? ->] | [[? ->] | [? ->]]]; by rewrite andb_false_r. }
  destruct ((MAX_FILE_LINES <? file_lines) || (MAX_FILE_BYTES <? file_bytes)),
    (is_None offset), Hlim as [[? ->] | [[? ->] | [? ->]]];
    try discriminate Hoff; done.
Qed.

(** The word "all" as limit, on the file of 50 lines. *)
Lemma non_numeric_limit_fails_witness :
  let r := run (sample_env "README.md" small_file)
               (Document (JDict (read_tool
                  [("file_path", JStr "README.md"); ("limit", JStr "all")])))
               ["earlier"] in
  r.1 = 1 ∧ stdout r.2 = [] ∧ log_file r.2 = ["earlier"].
Proof.
  apply (non_numeric_limit_fails
           (sample_env "README.md" small_file)
           (read_tool [("file_path", JStr "README.md"); ("limit", JStr "all")])
           [("file_path", JStr "README.md"); ("limit", JStr "all")]
           "README.md" JNull (JStr "all") 50 2048 ["earlier"]).
  - repeat split.
  - vm_compute. reflexivity.
  - vm_compute. reflexivity.
  - left. by exists "all".
  - left. split; vm_compute; discriminate.
Defined.

(** *** When a call is blocked *)

(** X14.  On a measured file, a call whose limit is absent or an integer is
    blocked exactly when the file exceeds a threshold and offset or limit
    is missing, or the limit exceeds the ceiling. *)
Theorem blocked_iff env items ti file_path offset limit
    file_lines file_bytes log0 :
  read_call items ti file_path offset limit →
  skipped (os_name env) file_path = false →
  metrics env file_path = Some (file_lines, file_bytes) →
  limit = JNull ∨ (∃ n, limit = JInt n) →
  (run env (Document (JDict items)) log0).1 = 2 ↔
  ((MAX_FILE_LINES < file_lines ∨ MAX_FILE_BYTES < file_bytes) ∧
   (offset = JNull ∨ limit = JNull)) ∨
  (∃ n, limit = JInt n ∧ MAX_SINGLE_READ_LINES < n).
Proof.
  intros Hcall Hskip Hm Hlim.
  rewrite (run_measured _ _ _ _ _ _ _ _ _ Hcall Hskip Hm).
  destruct (decide (file_lines ≤ MAX_FILE_LINES ∧ file_bytes ≤ MAX_FILE_BYTES))
    as [[Hl Hb] | Hex].
  - destruct Hlim as [-> | [n ->]].
    + destruct (is_None offset) eqn:Hoff.
      * apply is_None_true in Hoff as ->. rewrite rules_pass_plain by done.
        cbn. split; [done|]. intros [[? _] | (n & ? & _)]; [lia | done].
      * rewrite rules_auto by done.
        cbn. split; [done|]. intros [[? _] | (n & ? & _)]; [lia | done].
    + destruct (decide (n ≤ MAX_SINGLE_READ_LINES)).
      * rewrite rules_pass_limit by auto.
        cbn. split; [done|]. intros [[? _] | (m & [= <-] & ?)]; lia.
      * rewrite rules_ceiling by (auto; lia).
        cbn. split; [|done]. intros _. right. exists n. split; [done | lia].
  - assert (MAX_FILE_LINES < file_lines ∨ MAX_FILE_BYTES < file_bytes) by lia.
    destruct (is_None offset) eqn:Hoff.
    { apply is_None_true in Hoff as ->. rewrite rules_paging by auto.
      cbn. split; [|done]. intros _. left. auto. }
    destruct Hlim as [-> | [n ->]].
    { rewrite rules_paging by auto. cbn. split; [|done]. intros _. left. auto. }
    destruct (decide (n ≤ MAX_SINGLE_READ_LINES)).
    + rewrite rules_pass_limit by auto.
      cbn. split; [done|].
      intros [[_ [-> | ?]] | (m & [= <-] & ?)]; [done | done | lia].
    + rewrite rules_ceiling by (auto; lia).
      cbn. split; [|done]. intros _. right. exists n. split; [done | lia].
Qed.

(** The file of 800 lines and 60 KB with a limit of 50 and no offset. *)
Lemma blocked_iff_witness :
  (run (sample_env "data/events.csv" heavy_file)
       (Document (JDict (read_tool
          [("file_path", JStr "data/events.csv"); ("limit", JInt 50)]))) []).1 = 2 ↔
  ((MAX_FILE_LINES < 800 ∨ MAX_FILE_BYTES < 61440) ∧
   (JNull = JNull ∨ JInt 50 = JNull)) ∨
  (∃ n, JInt 50 = JInt n ∧ MAX_SINGLE_READ_LINES < n).
Proof.
  apply (blocked_iff
           (sample_env "data/events.csv" heavy_file)
           (read_tool [("file_path", JStr "data/events.csv"); ("limit", JInt 50)])
           [("file_path", JStr "data/events.csv"); ("limit", JInt 50)]
           "data/events.csv" JNull (JInt 50) 800 61440 []).
  - repeat split.
  - vm_compute. reflexivity.
  - vm_compute. reflexivity.
  - right. by exists 50.
Defined.

(** *** Submitting the amended call *)

(** X15.  The limit that rule 3 adds is accepted when the call comes back with
    it: the same path and offset with the limit of the printed document
    pass, with nothing printed. *)
Theorem amended_call_passes env items ti file_path offset
    file_lines file_bytes log0 :
  read_call items ti file_path offset JNull →
  offset ≠ JNull →
  skipped (os_name env) file_path = false →
  metrics env file_path = Some (file_lines, file_bytes) →
  file_lines ≤ MAX_FILE_LINES →
  file_bytes ≤ MAX_FILE_BYTES →
  ∃ doc,
    stdout (run env (Document (JDict items)) log0).2 = [doc] ∧
    ∀ items' ti' log1,
      read_call items' ti' file_path offset (updated_limit doc) →
      run env (Document (JDict items')) log1 =
      (0, {| stdout := []; stderr := [];
             log_file := logged env log1
               (log_entry (now env) false file_lines file_bytes
                  "passed" file_path) |}).
Proof.
  intros Hcall Hoff Hskip Hm Hl Hb.
  exists (auto_limit_output file_lines file_bytes). split.
  - rewrite (run_measured _ _ _ _ _ _ _ _ _ Hcall Hskip Hm).
    by rewrite rules_auto by auto using is_None_false.
  - intros items' ti' log1 Hcall'.
    rewrite (run_measured _ _ _ _ _ _ _ _ _ Hcall' Hskip Hm).
    change (updated_limit _) with (JInt MAX_SINGLE_READ_LINES).
    rewrite rules_pass_limit; [done | auto | done].
Qed.

(** Scenario 3 and the call that follows it. *)
Lemma amended_call_passes_witness :
  ∃ doc,
    stdout (run (sample_env "README.md" small_file)
                (Document (JDict (read_tool
                   [("file_path", JStr "README.md"); ("offset", JInt 5)]))) []).2
      = [doc] ∧
    run (sample_env "README.md" small_file)
        (Document (JDict (read_tool
           [("file_path", JStr "README.md"); ("offset", JInt 5);
            ("limit", updated_limit doc)]))) [] =
    (0, {| stdout := []; stderr := [];
           log_file :=
             ["2025-03-14 09:26:53 | ALLOWED | lines=50 bytes=2048 | "
              +:+ "passed | README.md" +:+ nl] |}).
Proof.
  destruct (amended_call_passes
              (sample_env "README.md" small_file)
              (read_tool [("file_path", JStr "README.md"); ("offset", JInt 5)])
              [("file_path", JStr "README.md"); ("offset", JInt 5)]
              "README.md" (JInt 5) 50 2048 []
              ltac:(repeat split)
              ltac:(discriminate)
              ltac:(vm_compute; reflexivity)
              ltac:(vm_compute; reflexivity)
              ltac:(vm_compute; discriminate)
              ltac:(vm_compute; discriminate)) as (doc & Hdoc & Hnext).
  exists doc. split; [exact Hdoc|].
  apply (Hnext _ [("file_path", JStr "README.md"); ("offset", JInt 5);
                  ("limit", updated_limit doc)]).
  repeat split.
Defined.

(** *** Letter case and the skip list *)

Lemma lower_ascii_idem a : lower_ascii (lower_ascii a) = lower_ascii a.
Proof. by destruct a as [[] [] [] [] [] [] [] []]. Qed.

Lemma lower_idem s : lower (lower s) = lower s.
Proof. induction s as [|a s IH]; cbn; [done|]. by rewrite lower_ascii_idem, IH. Qed.

Lemma lower_ascii_dot a : Ascii.eqb (lower_ascii a) "." = Ascii.eqb a ".".
Proof. by destruct a as [[] [] [] [] [] [] [] []]. Qed.

Lemma lower_ascii_slash a : Ascii.eqb (lower_ascii a) "/" = Ascii.eqb a "/".
Proof. by destruct a as [[] [] [] [] [] [] [] []]. Qed.

Lemma lower_ascii_backslash a : Ascii.eqb (lower_ascii a) "092" = Ascii.eqb a "092".
Proof. by destruct a as [[] [] [] [] [] [] [] []]. Qed.

Lemma rfind_from_lower c s i last :
  (∀ a, Ascii.eqb (lower_ascii a) c = Ascii.eqb a c) →
  rfind_from c (lower s) i last = rfind_from c s i last.
Proof.
  intros Hc. revert i last.
  induction s as [|a s IH]; intros i last; cbn; [done|]. by rewrite Hc, IH.
Qed.

Lemma substring_lower n m s : substring n m (lower s) = lower (substring n m s).
Proof.
  revert n m. induction s as [|a s IH]; intros [|n] [|m]; cbn; try done;
    by rewrite IH.
Qed.

Lemma length_lower s : String.length (lower s) = String.length s.
Proof. induction s as [|a s IH]; cbn; [done|]. by rewrite IH. Qed.

Lemma eqb_dot_lower s : String.eqb (lower s) "." = String.eqb s ".".
Proof.
  destruct s as [|a [|b s]]; cbn; [done | | ].
  - by rewrite lower_ascii_dot.
  - by rewrite lower_ascii_dot.
Qed.

Lemma split_at_dot_lower p i steps :
  split_at_dot (lower p) i steps = split_at_dot p i steps.
Proof.
  revert i. induction steps as [|steps IH]; intros i; cbn; [done|].
  unfold slice. by rewrite substring_lower, eqb_dot_lower, IH.
Qed.

Lemma _splitext_lower p sep altsep :
  (∀ a, Ascii.eqb (lower_ascii a) sep = Ascii.eqb a sep) →
  (∀ c, altsep = Some c → ∀ a, Ascii.eqb (lower_ascii a) c = Ascii.eqb a c) →
  _splitext (lower p) sep altsep =
  (lower (_splitext p sep altsep).1, lower (_splitext p sep altsep).2).
Proof.
  intros Hsep Halt. unfold _splitext, rfind.
  rewrite !rfind_from_lower by auto using lower_ascii_dot.
  assert (match altsep with
          | Some a => rfind_from sep p 0 (-1) `max` rfind_from a (lower p) 0 (-1)
          | None => rfind_from sep p 0 (-1)
          end =
          match altsep with
          | Some a => rfind_from sep p 0 (-1) `max` rfind_from a p 0 (-1)
          | None => rfind_from sep p 0 (-1)
          end) as ->.
  { destruct altsep; [|done]. by rewrite rfind_from_lower by eauto. }
  rewrite split_at_dot_lower.
  destruct (_ && _); cbn; [|done].
  unfold slice, slice_from. by rewrite !substring_lower, length_lower.
Qed.

Lemma splitext_lower os p :
  (splitext os (lower p)).2 = lower (splitext os p).2.
Proof.
  destruct os; unfold splitext; rewrite _splitext_lower; try done.
  - apply lower_ascii_slash.
  - apply lower_ascii_backslash.
  - intros c [= <-]. apply lower_ascii_slash.
Qed.

Lemma skipped_lower os p : skipped os (lower p) = skipped os p.
Proof. unfold skipped. by rewrite splitext_lower, lower_idem. Qed.

(** X16.  The skip test ignores the case of ASCII letters anywhere in the
    path: two paths that differ only in case are skipped alike. *)
Theorem skip_ignores_case os p q :
  lower p = lower q → skipped os p = skipped os q.
Proof. intros H. by rewrite <-(skipped_lower os p), H, skipped_lower. Qed.

Lemma skip_ignores_case_witness :
  skipped Nt "Assets/Logo.PNG" = skipped Nt "assets/logo.png".
Proof. apply skip_ignores_case. reflexivity. Defined.

(** ** A boolean as limit *)

(** X17.  A JSON boolean given as limit counts as a supplied limit and,
    being the integer 0 or 1, never exceeds the ceiling: unless rule 1
    blocks for a missing offset, the call passes. *)
Theorem boolean_limit_passes env items ti file_path offset b
    file_lines file_bytes log0 :
  read_call items ti file_path offset (JBool b) →
  skipped (os_name env) file_path = false →
  metrics env file_path = Some (file_lines, file_bytes) →
  (file_lines ≤ MAX_FILE_LINES ∧ file_bytes ≤ MAX_FILE_BYTES) ∨ offset ≠ JNull →
  run env (Document (JDict items)) log0 =
  (0, {| stdout := []; stderr := [];
         log_file := logged env log0
           (log_entry (now env) false file_lines file_bytes "passed" file_path) |}).
Proof.
  intros Hcall Hskip Hm Hr1.
  rewrite (run_measured _ _ _ _ _ _ _ _ _ Hcall Hskip Hm).
  unfold main_rules.
  assert (((MAX_FILE_LINES <? file_lines) || (MAX_FILE_BYTES <? file_bytes))
          && (is_None offset || is_None (JBool b)) = false) as Hoff.
  { destruct Hr1 as [[??] | H].
    - rewrite (proj2 (Z.ltb_ge _ _)), (proj2 (Z.ltb_ge _ _)); done.
    - rewrite (is_None_false offset H). by rewrite andb_false_r. }
  destruct ((MAX_FILE_LINES <? file_lines) || (MAX_FILE_BYTES <? file_bytes)),
    (is_None offset), b; try discriminate Hoff;
    cbv [mbind mret Py_bind Py_ret when is_None orb andb negb exceeds_read_lines];
    cbn; by rewrite log_stats_run.
Qed.

(** The file of 800 lines and 60 KB, offset 10, limit [true]. *)
Lemma boolean_limit_passes_witness :
  run (sample_env "data/events.csv" heavy_file)
      (Document (JDict (read_tool
         [("file_path", JStr "data/events.csv");
          ("offset", JInt 10); ("limit", JBool true)]))) [] =
  (0, {| stdout := []; stderr := [];
         log_file :=
           ["2025-03-14 09:26:53 | ALLOWED | lines=800 bytes=61440 | "
            +:+ "passed | data/events.csv" +:+ nl] |}).
Proof.
  apply (boolean_limit_passes
           (sample_env "data/events.csv" heavy_file)
           (read_tool [("file_path", JStr "data/events.csv");
                       ("offset", JInt 10); ("limit", JBool true)])
           [("file_path", JStr "data/events.csv");
            ("offset", JInt 10); ("limit", JBool true)]
           "data/events.csv" (JInt 10) true 800 61440 []).
  - repeat split.
  - vm_compute. reflexivity.
  - vm_compute. reflexivity.
  - right. discriminate.
Defined.
